(** * Timer-triggered MongoDB -> CSV -> Blob export: a model of [src/index.js]

    The JavaScript module is embedded as state-passing code.  An [async]
    function becomes a computation that takes the current world and gives an
    outcome (a returned value or a thrown value) together with the new world;
    [await] is sequencing.  A throw keeps every effect done before it, as in
    JavaScript, so the world is threaded through failures as well. *)

From Stdlib Require Import String Ascii List ZArith Lia Bool DecimalString.
Import ListNotations.

Local Open Scope string_scope.

(** ** Outcomes and the computation monad *)

(** What a JavaScript call produces: a value, or a thrown value of type [E]. *)
Inductive outcome (E A : Type) : Type :=
| Returned (a : A)
| Thrown (e : E).
Arguments Returned {E A} a.
Arguments Thrown {E A} e.

Definition is_thrown {E A} (o : outcome E A) : bool :=
  match o with Thrown _ => true | Returned _ => false end.

Module Async.

(** A computation over worlds [W] throwing values of type [E]. *)
Definition M (W E A : Type) : Type := W -> outcome E A * W.

Definition ret {W E A} (a : A) : M W E A := fun w => (Returned a, w).

(** [throw e] *)
Definition throw {W E A} (e : E) : M W E A := fun w => (Thrown e, w).

(** [const x = await c; k x] *)
Definition bind {W E A B} (c : M W E A) (k : A -> M W E B) : M W E B :=
  fun w =>
    match c w with
    | (Returned a, w') => k a w'
    | (Thrown e, w') => (Thrown e, w')
    end.

(** [try { body } catch (error) { handler error }] *)
Definition try_catch {W E A} (body : M W E A) (handler : E -> M W E A)
  : M W E A :=
  fun w =>
    match body w with
    | (Returned a, w') => (Returned a, w')
    | (Thrown e, w') => handler e w'
    end.

(** [try { body } finally { fin }]: [fin] runs on both exits of [body];
    a throw of [fin] replaces the outcome of [body]. *)
Definition try_finally {W E A} (body : M W E A) (fin : M W E unit)
  : M W E A :=
  fun w =>
    match body w with
    | (r, w') =>
        match fin w' with
        | (Returned _, w'') => (r, w'')
        | (Thrown e, w'') => (Thrown e, w'')
        end
    end.

(** An effect on the world that cannot throw. *)
Definition effect {W E} (f : W -> W) : M W E unit :=
  fun w => (Returned tt, f w).

End Async.

Import Async.

Declare Scope async_scope.
Delimit Scope async_scope with async.
Notation "x <- c ;; k" := (bind c (fun x => k))
  (at level 61, c at next level, right associativity) : async_scope.
Notation "c ;; k" := (bind c (fun _ => k))
  (at level 61, right associativity) : async_scope.
Local Open Scope async_scope.

(** ** retryOperation (index.js, lines 40-49) *)

Section Retry.

(** The world the operation acts on, the values it throws, and the effect
    of [await new Promise(resolve => setTimeout(resolve, delay))]. *)
Context {W E : Type}.
Variable setTimeout : Z -> W -> W.

Definition sleep (delay : Z) : M W E unit := effect (setTimeout delay).

(** The [for] loop, entered with the loop variable equal to [attempt].
    [fuel] bounds the number of iterations; [retryOperation] supplies
    [maxRetries] of them, which is as many as the loop can make
    (see [retry_loop_enough_fuel]).  Falling out of the loop returns
    [undefined], modelled as [None]. *)
Fixpoint retry_loop {A} (operation : M W E A) (maxRetries delay : Z)
         (fuel : nat) (attempt : Z) : M W E (option A) :=
  match fuel with
  | O => ret None
  | S fuel' =>
      if (attempt <=? maxRetries)%Z then
        try_catch
          (a <- operation ;; ret (Some a))
          (fun error =>
             if (attempt =? maxRetries)%Z then throw error
             else (sleep delay ;;
                   retry_loop operation maxRetries delay fuel' (attempt + 1)%Z))
      else ret None
  end.

Definition retryOperation {A} (operation : M W E A)
           (maxRetries delay : Z) : M W E (option A) :=
  retry_loop operation maxRetries delay (Z.to_nat maxRetries) 1%Z.

(** The world in which attempt number [k+1] starts when the [k] attempts
    before it all failed: each failed attempt is followed by one delay. *)
Fixpoint world_before {A} (operation : M W E A) (delay : Z) (k : nat)
         (w : W) : W :=
  match k with
  | O => w
  | S k' => setTimeout delay (snd (operation (world_before operation delay k' w)))
  end.

(** Outcome and world of attempt number [k+1]. *)
Definition attempt_run {A} (operation : M W E A) (delay : Z) (k : nat)
           (w : W) : outcome E A * W :=
  operation (world_before operation delay k w).

End Retry.

(** ** Ghost counters

    To count invocations and delays, any world is paired with two counters
    that the code cannot read: [counted] bumps [calls] each time the
    operation is entered, [counting_timeout] bumps [delays] each time a delay
    is awaited. *)

Record probe (W : Type) : Type := Probe {
  inner : W;
  calls : nat;
  delays : nat
}.
Arguments Probe {W} inner calls delays.
Arguments inner {W} p.
Arguments calls {W} p.
Arguments delays {W} p.

Definition counted {W E A} (operation : M W E A) : M (probe W) E A :=
  fun p =>
    match operation (inner p) with
    | (r, w') => (r, Probe w' (S (calls p)) (delays p))
    end.

Definition counting_timeout {W} (setTimeout : Z -> W -> W)
  : Z -> probe W -> probe W :=
  fun delay p => Probe (setTimeout delay (inner p)) (calls p) (S (delays p)).

(** ** Characters that cannot be written inside a string literal *)

(** The double quote, code 34. *)
Definition dquote : ascii := Ascii false true false false false true false false.
(** The line feed, code 10. *)
Definition newline : ascii := Ascii false true false true false false false false.

Definition quoted (s : string) : string :=
  String dquote (s ++ String dquote EmptyString).

(** Decimal rendering of a number inside a template literal. *)
Definition decimal (z : Z) : string := NilZero.string_of_int (Z.to_int z).

(** ** Thrown values *)

(** The properties of an [Error] object that the module reads. *)
Record Error : Type := {
  name : string;
  message : string;
  stack : string
}.

(** A thrown value is either an [Error] raised by the engine or by a client
    library, or an instance of the module's own class [CustomError], which
    carries a [type] label.  The class is private to the module, so no
    collaborator can raise an instance of it: collaborators raise [Error]s. *)
Inductive thrown : Type :=
| HostError (e : Error)
| CustomError (e : Error) (type : string).

Definition error_of (t : thrown) : Error :=
  match t with HostError e => e | CustomError e _ => e end.

(** [new CustomError(message, type)] (lines 6-12): [name] is the class name;
    of the captured stack only the header line is modelled. *)
Definition new_CustomError (msg type : string) : thrown :=
  CustomError {| name := "CustomError"; message := msg;
                 stack := "Error: " ++ msg |} type.

(** The [TypeError] the engine raises when a property of [undefined] is
    read or [Object.keys(undefined)] is evaluated. *)
Definition TypeError (msg : string) : thrown :=
  HostError {| name := "TypeError"; message := msg;
               stack := "TypeError: " ++ msg |}.

(** ** Records and their tabular encoding *)

Inductive value : Type :=
| VNumber (n : Z)
| VString (s : string)
| VBoolean (b : bool)
| VNull.

(** A document is the list of its own enumerable properties, in the order in
    which [Object.keys] enumerates them. *)
Definition document : Type := list (string * value).

Definition Object_keys (d : document) : list string := map fst d.

(** Property read [d[field]]; [None] is [undefined]. *)
Fixpoint get (field : string) (d : document) : option value :=
  match d with
  | [] => None
  | (k, v) :: d' => if String.eqb k field then Some v else get field d'
  end.

Module Json2csv.

(** Modelled from the spec: the [parse] function of the json2csv package,
    which is imported at line 3 and is not part of the source tree.  The
    spec describes it as comma-separated text with a header row of column
    names, RFC-4180 quoting, an empty field for an absent column, and (in
    its end-to-end example) a line feed after every line, the last one
    included. *)

(** Modelled from the spec: RFC-4180 escaping doubles every double quote. *)
Fixpoint escape (s : string) : string :=
  match s with
  | EmptyString => EmptyString
  | String c s' =>
      if Ascii.eqb c dquote then String dquote (String dquote (escape s'))
      else String c (escape s')
  end.

(** Modelled from the spec: text values are quoted, numbers are written
    in decimal, an absent or null value is the empty field. *)
Definition cell (v : option value) : string :=
  match v with
  | None => EmptyString
  | Some VNull => EmptyString
  | Some (VNumber n) => decimal n
  | Some (VString s) => quoted (escape s)
  | Some (VBoolean true) => "true"
  | Some (VBoolean false) => "false"
  end.

(** Modelled from the spec: fields are separated by [sep], a comma. *)
Fixpoint join (sep : string) (l : list string) : string :=
  match l with
  | [] => EmptyString
  | [x] => x
  | x :: l' => x ++ sep ++ join sep l'
  end.

(** Modelled from the spec: the header row holds the quoted column names. *)
Definition header (fields : list string) : string :=
  join "," (map (fun f => quoted (escape f)) fields).

(** Modelled from the spec: the fields of one record, column by column. *)
Definition cells (fields : list string) (d : document) : list string :=
  map (fun f => cell (get f d)) fields.

(** Modelled from the spec: one row per record, one field per column. *)
Definition row (fields : list string) (d : document) : string :=
  join "," (cells fields d).

(** Modelled from the spec: the header row, then the rows in batch order. *)
Definition lines (data : list document) (fields : list string)
  : list string :=
  header fields :: map (row fields) data.

(** Modelled from the spec: every line is ended by a line feed. *)
Fixpoint unlines (l : list string) : string :=
  match l with
  | [] => EmptyString
  | x :: l' => x ++ String newline (unlines l')
  end.

(** Modelled from the spec: [parse(data, { fields })]. *)
Definition parse (data : list document) (fields : list string) : string :=
  unlines (lines data fields).

End Json2csv.

(** generateCSV (lines 28-31).  On an empty array [documents[0]] is
    [undefined] and [Object.keys] throws. *)
Definition generateCSV (documents : list document) : outcome thrown string :=
  match documents with
  | [] => Thrown (TypeError "Cannot convert undefined or null to object")
  | first :: _ =>
      let fields := Object_keys first in
      Returned (Json2csv.parse documents fields)
  end.

(** Number of characters of [s] equal to [c]. *)
Fixpoint occurrences (c : ascii) (s : string) : nat :=
  match s with
  | EmptyString => 0
  | String c' s' => (if Ascii.eqb c' c then 1 else 0) + occurrences c s'
  end.

(** A document none of whose keys and text values holds a line feed. *)
Definition single_line_value (v : value) : bool :=
  match v with
  | VString s => Nat.eqb (occurrences newline s) 0
  | _ => true
  end.

Definition single_line (d : document) : bool :=
  forallb (fun kv => Nat.eqb (occurrences newline (fst kv)) 0
                     && single_line_value (snd kv)) d.

(** The properties of [d] whose key is a column. *)
Definition restrict (fields : list string) (d : document) : document :=
  filter (fun kv => existsb (String.eqb (fst kv)) fields) d.

(** The batch of the spec's end-to-end scenario, [[{a:1,b:2},{a:3,b:4}]],
    and its expected payload. *)
Definition example_batch : list document :=
  [ [("a", VNumber 1); ("b", VNumber 2)];
    [("a", VNumber 3); ("b", VNumber 4)] ].

Definition example_payload : string :=
  quoted "a" ++ "," ++ quoted "b" ++ String newline
  ("1,2" ++ String newline ("3,4" ++ String newline EmptyString)).

(** ** Configuration: [process.env] *)

(** An environment variable is a string or [undefined] ([None]). *)
Record process_env : Type := {
  MongoDBAtlasConnectionString : option string;
  DatabaseName : option string;
  CollectionName : option string;
  AzureBlobStorageConnectionString : option string;
  BlobContainerName : option string
}.

(** [!x]: [undefined] and the empty string are falsy. *)
Definition falsy (x : option string) : bool :=
  match x with
  | None => true
  | Some EmptyString => true
  | Some (String _ _) => false
  end.

(** The string held by a variable once it is known to be truthy. *)
Definition text (x : option string) : string :=
  match x with Some s => s | None => "undefined" end.

(** The condition of the input validation (lines 64-65). *)
Definition missing (env : process_env) : bool :=
  falsy (MongoDBAtlasConnectionString env) || falsy (DatabaseName env)
  || falsy (CollectionName env)
  || falsy (AzureBlobStorageConnectionString env)
  || falsy (BlobContainerName env).

(** ** Collaborators and the observable trace *)

(** Every call into a client library and every log line is recorded, oldest
    first, together with what the call gave back.  The trace is ghost state:
    the code never reads it. *)
Inductive event : Type :=
| Log (msg : string)
| LogError (msg : string)
| Connect (connectionString : string)
          (serverSelectionTimeoutMS connectTimeoutMS : Z) (ok : bool)
| Delay (ms : Z)
| Find (db collection : string) (found : option nat)
| ContainerExists (container : string) (answer : option bool)
| UploadStream (container blobName payload : string) (bufferSize : nat)
               (ok : bool)
| Close (ok : bool).

(** The client libraries, acting on a state [S] of the outside world that
    the module knows nothing about.  [Client] is the type of a connected
    [MongoClient].  A library call that fails raises an [Error] object, as
    the MongoDB driver and the Azure SDK do; the logger [context.log] never
    raises. *)
Record collaborators (S Client : Type) : Type := {
  (** [new MongoClient(connectionString, options)] then [client.connect()] *)
  mongo_connect : string -> Z -> Z -> S -> outcome Error Client * S;
  (** [client.db(db).collection(name).find({}).toArray()] *)
  find_toArray : Client -> string -> string -> S
                 -> outcome Error (list document) * S;
  (** [BlobServiceClient.fromConnectionString], which reads no state *)
  fromConnectionString : string -> outcome Error unit;
  (** [containerClient.exists()] *)
  container_exists : string -> string -> S -> outcome Error bool * S;
  (** [blockBlobClient.uploadStream(stream, length)] *)
  uploadStream : string -> string -> string -> string -> nat -> S
                 -> outcome Error unit * S;
  (** [client.close()] *)
  client_close : Client -> S -> outcome Error unit * S;
  (** what the outside world does while the module waits *)
  elapse : Z -> S -> S
}.
Arguments mongo_connect {S Client} c.
Arguments find_toArray {S Client} c.
Arguments fromConnectionString {S Client} c.
Arguments container_exists {S Client} c.
Arguments uploadStream {S Client} c.
Arguments client_close {S Client} c.
Arguments elapse {S Client} c.

(** The state of one invocation: the outside world, the trace, and the
    local variable [client] of line 70 ([None] is [undefined]). *)
Record state (S Client : Type) : Type := State {
  outside : S;
  trace : list event;
  client : option Client
}.
Arguments State {S Client} outside trace client.
Arguments outside {S Client} s.
Arguments trace {S Client} s.
Arguments client {S Client} s.

Definition succeeded {A} (r : outcome Error A) : bool := negb (is_thrown r).

Definition returned_value {A} (r : outcome Error A) : option A :=
  match r with Returned a => Some a | Thrown _ => None end.

Section Pipeline.

Context {S Client : Type}.
Variable lib : collaborators S Client.

Local Abbreviation run := (M (state S Client) thrown).

Definition record (ev : event) : run unit :=
  effect (fun w => State (outside w) (trace w ++ [ev]) (client w)).

(** [context.log(msg)] and [context.log.error(msg)] *)
Definition context_log (msg : string) : run unit := record (Log msg).
Definition context_log_error (msg : string) : run unit :=
  record (LogError msg).

(** A call into a client library: the outside world moves, the call and
    its result are recorded, and an [Error] it raises is thrown. *)
Definition call {A} (f : S -> outcome Error A * S)
           (ev : outcome Error A -> event) : run A :=
  fun w =>
    match f (outside w) with
    | (r, s') =>
        (match r with
         | Returned a => Returned a
         | Thrown e => Thrown (HostError e)
         end,
         State s' (trace w ++ [ev r]) (client w))
    end.

(** The awaited [setTimeout] of the retry loop. *)
Definition setTimeout (delay : Z) (w : state S Client) : state S Client :=
  State (elapse lib delay (outside w)) (trace w ++ [Delay delay]) (client w).

(** [client = value] *)
Definition assign_client (c : option Client) : run unit :=
  effect (fun w => State (outside w) (trace w) c).

(** connectToMongoDB (lines 14-18) *)
Definition connectToMongoDB (connectionString : string)
           (serverSelectionTimeoutMS connectTimeoutMS : Z) : run Client :=
  call (mongo_connect lib connectionString serverSelectionTimeoutMS
                      connectTimeoutMS)
       (fun r => Connect connectionString serverSelectionTimeoutMS
                         connectTimeoutMS (succeeded r)).

(** fetchDataFromMongoDB (lines 20-26), applied to the collection
    [client.db(db).collection(coll)]. *)
Definition fetchDataFromMongoDB (c : Client) (db coll : string)
  : run (list document) :=
  documents <- call (find_toArray lib c db coll)
                    (fun r => Find db coll
                                (option_map (@List.length document)
                                            (returned_value r))) ;;
  if Nat.eqb (List.length documents) 0 then
    throw (new_CustomError "No documents found in MongoDB" "NoDataError")
  else ret documents.

(** uploadToBlob (lines 33-38); the buffer holds the bytes of [csv]. *)
Definition uploadToBlob (connectionString container blobName csv : string)
  : run unit :=
  call (uploadStream lib connectionString container blobName csv
                     (String.length csv))
       (fun r => UploadStream container blobName csv (String.length csv)
                              (succeeded r)).

(** The message of the error raised when the container is absent. *)
Definition container_missing_message (container : string) : string :=
  "Container " ++ quoted container ++ " does not exist".

(** A call that reads no state, such as building a client object. *)
Definition construct {A} (r : outcome Error A) : run A :=
  fun w =>
    (match r with
     | Returned a => Returned a
     | Thrown e => Thrown (HostError e)
     end, w).

(** The [try] block (lines 73-100).  [client.db] on an [undefined] client
    would raise a [TypeError]. *)
Definition try_block (env : process_env) (timeStamp : string) : run unit :=
  c <- retryOperation setTimeout
         (connectToMongoDB (text (MongoDBAtlasConnectionString env))
                           5000 10000) 3 1000 ;;
  assign_client c ;;
  context_log "Connected to MongoDB successfully" ;;
  match c with
  | None => throw (TypeError "Cannot read properties of undefined")
  | Some connected =>
      documents <- fetchDataFromMongoDB connected (text (DatabaseName env))
                                        (text (CollectionName env)) ;;
      context_log ("Retrieved "
                   ++ decimal (Z.of_nat (List.length documents))
                   ++ " documents from MongoDB") ;;
      csv <- (fun w => (generateCSV documents, w)) ;;
      context_log ("Generated CSV with size: "
                   ++ decimal (Z.of_nat (String.length csv)) ++ " bytes") ;;
      construct (fromConnectionString lib
                   (text (AzureBlobStorageConnectionString env))) ;;
      containerExists <-
        call (container_exists lib
                (text (AzureBlobStorageConnectionString env))
                (text (BlobContainerName env)))
             (fun r => ContainerExists (text (BlobContainerName env))
                              (returned_value r)) ;;
      if negb containerExists then
        throw (new_CustomError
                 (container_missing_message (text (BlobContainerName env)))
                 "ContainerNotFoundError")
      else
        let blobName := "data-export-" ++ timeStamp ++ ".csv" in
        uploadToBlob (text (AzureBlobStorageConnectionString env))
                     (text (BlobContainerName env)) blobName csv ;;
        context_log ("CSV file uploaded successfully to Blob Storage: "
                     ++ blobName) ;;
        context_log "Function execution completed successfully"
  end.

(** The classification line of the [catch] block (lines 105-113). *)
Definition classification (error : thrown) : string :=
  match error with
  | CustomError _ type => "Custom error type: " ++ type
  | HostError e =>
      if String.eqb (name e) "MongoServerSelectionError" then
        "Failed to select a MongoDB server. Check your network settings and connection string."
      else if String.eqb (name e) "MongoNetworkError" then
        "MongoDB network error. Ensure your MongoDB Atlas IP whitelist includes your function app's IP address."
      else "An unexpected error occurred."
  end.

(** The [catch] block (lines 101-113). *)
Definition catch_block (error : thrown) : run unit :=
  context_log_error ("Error occurred: " ++ message (error_of error)) ;;
  context_log_error ("Error stack: " ++ stack (error_of error)) ;;
  context_log_error (classification error).

(** The [finally] block (lines 114-123). *)
Definition finally_block : run unit :=
  fun w =>
    match client w with
    | Some connected =>
        try_catch
          (call (client_close lib connected) (fun r => Close (succeeded r)) ;;
           context_log "MongoDB connection closed")
          (fun closeError =>
             context_log_error
               ("Error occurred while closing MongoDB connection: "
                ++ message (error_of closeError)))
          w
    | None => ret tt w
    end.

(** The exported function (lines 51-124); [timeStamp] is the value of
    [new Date().toISOString()] and [env] is [process.env].  The source file
    holds a second copy of the module that differs from this one in its log
    lines only. *)
Definition main (env : process_env) (timeStamp : string) : run unit :=
  context_log ("JavaScript timer trigger function started: " ++ timeStamp) ;;
  if missing env then
    context_log_error "Missing required environment variables" ;;
    ret tt
  else
    assign_client None ;;
    try_finally (try_catch (try_block env timeStamp) catch_block)
                finally_block.

(** One invocation, started in the outside world [s]. *)
Definition invoke (env : process_env) (timeStamp : string) (s : S)
  : outcome thrown unit * state S Client :=
  main env timeStamp (State s [] None).

End Pipeline.

(** ** Reading a trace *)

Definition count (p : event -> bool) (t : list event) : nat :=
  List.length (filter p t).

Definition is_close (ev : event) : bool :=
  match ev with Close _ => true | _ => false end.

Definition is_upload (ev : event) : bool :=
  match ev with UploadStream _ _ _ _ _ => true | _ => false end.

Definition is_find (ev : event) : bool :=
  match ev with Find _ _ _ => true | _ => false end.

Definition is_exists (ev : event) : bool :=
  match ev with ContainerExists _ _ => true | _ => false end.

Definition is_connect (ev : event) : bool :=
  match ev with Connect _ _ _ _ => true | _ => false end.

(** Anything but a log line: a call into a client library or a delay. *)
Definition is_io (ev : event) : bool :=
  match ev with Log _ | LogError _ => false | _ => true end.

Definition connect_succeeded (ev : event) : bool :=
  match ev with Connect _ _ _ true => true | _ => false end.

Definition found_nothing (ev : event) : bool :=
  match ev with Find _ _ (Some O) => true | _ => false end.

Definition answered (b : bool) (ev : event) : bool :=
  match ev with ContainerExists _ (Some b') => Bool.eqb b b' | _ => false end.

Definition close_failed (ev : event) : bool :=
  match ev with Close false => true | _ => false end.

(** ** Concrete operations and collaborators, used to run the model *)

(** An operation over a counter of its own invocations: it fails, with the
    invocation number as the thrown value, while fewer than [good]
    invocations came before, and returns the invocation number after. *)
Definition flaky (good : nat) : M nat nat nat :=
  fun calls_so_far =>
    (if Nat.ltb calls_so_far good then Thrown (S calls_so_far)
     else Returned (S calls_so_far),
     S calls_so_far).

Definition no_wait : Z -> nat -> nat := fun _ w => w.

(** Collaborators over a counter of the connection attempts made so far:
    connecting fails, with a network error, while fewer than [good] attempts
    came before; the collection holds [docs]; the container probe answers
    [present]; closing the connection gives [closing]. *)
Definition network_error : Error :=
  {| name := "MongoNetworkError"; message := "connection timed out";
     stack := "MongoNetworkError: connection timed out" |}.

Definition sample_lib (good : nat) (docs : list document)
           (present : outcome Error bool) (closing : outcome Error unit)
  : collaborators nat unit :=
  {| mongo_connect := fun _ _ _ n =>
       (if Nat.ltb n good then Thrown network_error else Returned tt, S n);
     find_toArray := fun _ _ _ n => (Returned docs, n);
     fromConnectionString := fun _ => Returned tt;
     container_exists := fun _ _ n => (present, n);
     uploadStream := fun _ _ _ _ _ n => (Returned tt, n);
     client_close := fun _ n => (closing, n);
     elapse := fun _ n => n |}.

Definition sample_env : process_env :=
  {| MongoDBAtlasConnectionString := Some "mongodb+srv://cluster";
     DatabaseName := Some "shop";
     CollectionName := Some "orders";
     AzureBlobStorageConnectionString := Some "UseDevelopmentStorage=true";
     BlobContainerName := Some "exports" |}.

(** A configuration whose container name is absent. *)
Definition incomplete_env : process_env :=
  {| MongoDBAtlasConnectionString := Some "mongodb+srv://cluster";
     DatabaseName := Some "shop";
     CollectionName := Some "orders";
     AzureBlobStorageConnectionString := Some "UseDevelopmentStorage=true";
     BlobContainerName := None |}.

Definition sample_time : string := "2024-01-01T00:00:00.000Z".

(** The client library's failure to close. *)
Definition close_error : Error :=
  {| name := "MongoError"; message := "topology was destroyed";
     stack := "MongoError: topology was destroyed" |}.

(** A batch whose second record lacks column [b] and has a property [c]
    that is not a column. *)
Definition ragged_first : document := [("a", VNumber 1); ("b", VNumber 2)].
Definition ragged_second : document := [("a", VNumber 3); ("c", VString "x")].

(** The same collaborators with another [client.close]. *)
Definition with_close {S Client} (lib : collaborators S Client)
           (close : Client -> S -> outcome Error unit * S)
  : collaborators S Client :=
  {| mongo_connect := mongo_connect lib;
     find_toArray := find_toArray lib;
     fromConnectionString := fromConnectionString lib;
     container_exists := container_exists lib;
     uploadStream := uploadStream lib;
     client_close := close;
     elapse := elapse lib |}.

(** The events recorded before the first [Close]. *)
Fixpoint until_close (t : list event) : list event :=
  match t with
  | [] => []
  | Close _ :: _ => []
  | ev :: t' => ev :: until_close t'
  end.

(** The events recorded after the first container probe. *)
Fixpoint after_probe (t : list event) : list event :=
  match t with
  | [] => []
  | ContainerExists _ _ :: t' => t'
  | _ :: t' => after_probe t'
  end.

(** A configuration value that is absent or empty. *)
Definition absent_or_empty (x : option string) : Prop :=
  x = None \/ x = Some EmptyString.

(** ** The second copy of the module (index.js, lines 125-252)

    The file holds the module twice.  The helper functions of the second
    copy (lines 129-172) are the same text as lines 6-49; its exported
    function (lines 174-252) logs more progress lines and writes every line
    with [context.log], never with [context.log.error]. *)

Module SecondCopy.

Section Pipeline.

Context {S Client : Type}.
Variable lib : collaborators S Client.

Local Abbreviation run := (M (state S Client) thrown).

(** The [try] block (lines 196-228). *)
Definition try_block (env : process_env) (timeStamp : string) : run unit :=
  context_log "Attempting to connect to MongoDB" ;;
  c <- retryOperation (setTimeout lib)
         (connectToMongoDB lib (text (MongoDBAtlasConnectionString env))
                           5000 10000) 3 1000 ;;
  assign_client c ;;
  context_log "Connected to MongoDB successfully" ;;
  context_log "Fetching DB Name" ;;
  match c with
  | None => throw (TypeError "Cannot read properties of undefined")
  | Some connected =>
      context_log "Fetching Collection Name" ;;
      context_log "Fetching documents" ;;
      documents <- fetchDataFromMongoDB lib connected
                     (text (DatabaseName env)) (text (CollectionName env)) ;;
      context_log ("Retrieved "
                   ++ decimal (Z.of_nat (List.length documents))
                   ++ " documents from MongoDB") ;;
      csv <- (fun w => (generateCSV documents, w)) ;;
      context_log ("Generated CSV with size: "
                   ++ decimal (Z.of_nat (String.length csv)) ++ " bytes") ;;
      construct (fromConnectionString lib
                   (text (AzureBlobStorageConnectionString env))) ;;
      containerExists <-
        call (container_exists lib
                (text (AzureBlobStorageConnectionString env))
                (text (BlobContainerName env)))
             (fun r => ContainerExists (text (BlobContainerName env))
                                       (returned_value r)) ;;
      if negb containerExists then
        throw (new_CustomError
                 (container_missing_message (text (BlobContainerName env)))
                 "ContainerNotFoundError")
      else
        let blobName := "data-export-" ++ timeStamp ++ ".csv" in
        uploadToBlob lib (text (AzureBlobStorageConnectionString env))
                     (text (BlobContainerName env)) blobName csv ;;
        context_log ("CSV file uploaded successfully to Blob Storage: "
                     ++ blobName) ;;
        context_log "Function execution completed successfully"
  end.

(** The [catch] block (lines 229-241). *)
Definition catch_block (error : thrown) : run unit :=
  context_log ("Error occurred: " ++ message (error_of error)) ;;
  context_log ("Error stack: " ++ stack (error_of error)) ;;
  context_log (classification error).

(** The [finally] block (lines 242-251). *)
Definition finally_block : run unit :=
  fun w =>
    match client w with
    | Some connected =>
        try_catch
          (call (client_close lib connected) (fun r => Close (succeeded r)) ;;
           context_log "MongoDB connection closed")
          (fun closeError =>
             context_log
               ("Error occurred while closing MongoDB connection: "
                ++ message (error_of closeError)))
          w
    | None => ret tt w
    end.

(** The exported function (lines 174-252). *)
Definition main (env : process_env) (timeStamp : string) : run unit :=
  context_log ("JavaScript timer trigger function started: " ++ timeStamp) ;;
  context_log "Fetching ENV variables" ;;
  if missing env then
    context_log "Missing required environment variables" ;;
    ret tt
  else
    assign_client None ;;
    try_finally (try_catch (try_block env timeStamp) catch_block)
                finally_block.

Definition invoke (env : process_env) (timeStamp : string) (s : S)
  : outcome thrown unit * state S Client :=
  main env timeStamp (State s [] None).

End Pipeline.

End SecondCopy.

(** ** More readings of a trace *)

Definition is_delay (ev : event) : bool :=
  match ev with Delay _ => true | _ => false end.

Definition is_log_error (ev : event) : bool :=
  match ev with LogError _ => true | _ => false end.

Definition upload_succeeded (ev : event) : bool :=
  match ev with UploadStream _ _ _ _ true => true | _ => false end.

Definition found_something (ev : event) : bool :=
  match ev with Find _ _ (Some (S _)) => true | _ => false end.

(** [ev] is no connection attempt, or is one made to [connectionString]
    with the two timeouts of lines 74-75. *)
Definition connects_as_configured (connectionString : string) (ev : event)
  : bool :=
  match ev with
  | Connect cs sst ct _ =>
      String.eqb cs connectionString && Z.eqb sst 5000 && Z.eqb ct 10000
  | _ => true
  end.

(** [ev] is no delay, or is a delay of one second. *)
Definition waits_one_second (ev : event) : bool :=
  match ev with Delay ms => Z.eqb ms 1000 | _ => true end.

(** [ev] is no upload, or is an upload into [container] of a blob called
    [blobName] whose declared size is the length of its payload. *)
Definition uploads_as_named (container blobName : string) (ev : event)
  : bool :=
  match ev with
  | UploadStream c b payload size _ =>
      String.eqb c container && String.eqb b blobName
      && Nat.eqb size (String.length payload)
  | _ => true
  end.

(** The events recorded after the first [Close]. *)
Fixpoint after_close (t : list event) : list event :=
  match t with
  | [] => []
  | Close _ :: t' => t'
  | _ :: t' => after_close t'
  end.

(** The three lines that report how a run of the first copy ended. *)
Definition is_success_line (ev : event) : bool :=
  match ev with
  | Log msg => String.eqb msg "Function execution completed successfully"
  | _ => false
  end.

(** [s] begins with [p]. *)
Fixpoint starts_with (p s : string) : bool :=
  match p with
  | EmptyString => true
  | String a p' =>
      match s with
      | EmptyString => false
      | String b s' => Ascii.eqb a b && starts_with p' s'
      end
  end.

Definition is_failure_line (ev : event) : bool :=
  match ev with
  | LogError msg => starts_with "Error occurred: " msg
  | _ => false
  end.

Definition is_rejection_line (ev : event) : bool :=
  match ev with
  | LogError msg => String.eqb msg "Missing required environment variables"
  | _ => false
  end.

(** A configuration value that is a non-empty string. *)
Definition present (x : option string) : Prop :=
  exists c rest, x = Some (String c rest).

(** Collaborators that all succeed; the outside state counts the calls
    made.  Connecting fails while fewer than [good] attempts came before. *)
Definition steady_lib (good : nat) (docs : list document)
  : collaborators nat unit :=
  {| mongo_connect := fun _ _ _ n =>
       (if Nat.ltb n good then Thrown network_error else Returned tt, S n);
     find_toArray := fun _ _ _ n => (Returned docs, S n);
     fromConnectionString := fun _ => Returned tt;
     container_exists := fun _ _ n => (Returned true, S n);
     uploadStream := fun _ _ _ _ _ n => (Returned tt, S n);
     client_close := fun _ n => (Returned tt, S n);
     elapse := fun _ n => n |}.

(** * Properties *)

(** ** The retry loop *)

Section RetryFacts.

Context {W E : Type}.
Variable setTimeout : Z -> W -> W.

Ltac run_step :=
  cbv [bind try_catch ret throw sleep effect].

Lemma world_before_shift {A} (operation : M W E A) delay k w :
  world_before setTimeout operation delay (S k) w
  = world_before setTimeout operation delay k
      (setTimeout delay (snd (operation w))).
Proof.
  induction k as [|k IH]; [reflexivity|].
  change (world_before setTimeout operation delay (S (S k)) w)
    with (setTimeout delay
            (snd (operation (world_before setTimeout operation delay (S k) w)))).
  now rewrite IH.
Qed.

Lemma attempt_run_shift {A} (operation : M W E A) delay k w :
  attempt_run setTimeout operation delay (S k) w
  = attempt_run setTimeout operation delay k
      (setTimeout delay (snd (operation w))).
Proof. unfold attempt_run. now rewrite world_before_shift. Qed.

(** The fuel given by [retryOperation] is never what stops the loop: with
    [attempt + fuel = maxRetries + 1], the fuel is exhausted exactly when
    the loop condition is false. *)
Lemma retry_loop_fuel {A} (operation : M W E A) maxRetries delay attempt w :
  (maxRetries < attempt)%Z ->
  forall fuel,
    retry_loop setTimeout operation maxRetries delay fuel attempt w
    = (Returned None, w).
Proof.
  intros Hlt [|fuel]; [reflexivity|].
  simpl. destruct (Z.leb_spec attempt maxRetries); [lia | reflexivity].
Qed.

(** Any fuel that covers the iterations left gives the same run, so the
    result of [retryOperation] is that of the unbounded loop. *)
Lemma retry_loop_enough_fuel {A} (operation : M W E A) maxRetries delay :
  forall fuel fuel' attempt w,
    (maxRetries + 1 - attempt <= Z.of_nat fuel)%Z ->
    (maxRetries + 1 - attempt <= Z.of_nat fuel')%Z ->
    retry_loop setTimeout operation maxRetries delay fuel attempt w
    = retry_loop setTimeout operation maxRetries delay fuel' attempt w.
Proof.
  induction fuel as [|fuel IH]; intros fuel' attempt w H H'.
  - assert (Hlt : (maxRetries < attempt)%Z) by lia.
    now rewrite !(retry_loop_fuel operation maxRetries delay attempt w Hlt).
  - destruct fuel' as [|fuel'].
    + assert (Hlt : (maxRetries < attempt)%Z) by lia.
      now rewrite !(retry_loop_fuel operation maxRetries delay attempt w Hlt).
    + simpl. destruct (Z.leb_spec attempt maxRetries); [|reflexivity].
      run_step. destruct (operation w) as [[a|e] w1]; [reflexivity|].
      destruct (Z.eqb_spec attempt maxRetries); [reflexivity|].
      apply IH; lia.
Qed.

(** When every attempt the loop can make fails, the loop throws what its
    last attempt threw, in the world that attempt left. *)
Lemma retry_loop_all_fail {A} (operation : M W E A) maxRetries delay :
  forall fuel attempt w,
    (attempt + Z.of_nat (S fuel) = maxRetries + 1)%Z ->
    (forall k, (k <= fuel)%nat ->
       is_thrown (fst (attempt_run setTimeout operation delay k w)) = true) ->
    exists e w',
      attempt_run setTimeout operation delay fuel w = (Thrown e, w')
      /\ retry_loop setTimeout operation maxRetries delay (S fuel) attempt w
         = (Thrown e, w').
Proof.
  induction fuel as [|fuel IH]; intros attempt w Hinv Hfail.
  - pose proof (Hfail 0%nat (le_n 0)) as H0.
    unfold attempt_run in *. simpl in *.
    destruct (Z.leb_spec attempt maxRetries); [|lia].
    run_step. destruct (operation w) as [[a|e] w1]; [discriminate|].
    exists e, w1. split; [reflexivity|].
    destruct (Z.eqb_spec attempt maxRetries); [reflexivity | lia].
  - pose proof (Hfail 0%nat (Nat.le_0_l _)) as H0.
    destruct (IH (attempt + 1)%Z (setTimeout delay (snd (operation w))))
      as (e & w' & Hlast & Hloop).
    + lia.
    + intros k Hk. rewrite <- attempt_run_shift. apply Hfail. lia.
    + exists e, w'. split; [now rewrite attempt_run_shift|].
      change (retry_loop setTimeout operation maxRetries delay (S (S fuel))
                         attempt w)
        with ((if (attempt <=? maxRetries)%Z then
                 try_catch (a <- operation ;; ret (Some a))
                   (fun error =>
                      if (attempt =? maxRetries)%Z then throw error
                      else (sleep setTimeout delay ;;
                            retry_loop setTimeout operation maxRetries delay
                                       (S fuel) (attempt + 1)%Z))
               else ret None) w).
      destruct (Z.leb_spec attempt maxRetries); [|lia].
      unfold attempt_run in H0. simpl in H0.
      run_step. destruct (operation w) as [[a|e1] w1]; [discriminate|].
      destruct (Z.eqb_spec attempt maxRetries); [lia|].
      exact Hloop.
Qed.

(** When the attempts before number [k+1] fail and that one returns, the
    loop returns its value in the world it left. *)
Lemma retry_loop_first_success {A} (operation : M W E A) maxRetries delay :
  forall k fuel attempt w a w',
    (attempt + Z.of_nat fuel = maxRetries + 1)%Z ->
    (k < fuel)%nat ->
    (forall j, (j < k)%nat ->
       is_thrown (fst (attempt_run setTimeout operation delay j w)) = true) ->
    attempt_run setTimeout operation delay k w = (Returned a, w') ->
    retry_loop setTimeout operation maxRetries delay fuel attempt w
    = (Returned (Some a), w').
Proof.
  induction k as [|k IH]; intros fuel attempt w a w' Hinv Hk Hfail Hok;
    (destruct fuel as [|fuel]; [lia|]);
    change (retry_loop setTimeout operation maxRetries delay (S fuel)
                       attempt w)
      with ((if (attempt <=? maxRetries)%Z then
               try_catch (a <- operation ;; ret (Some a))
                 (fun error =>
                    if (attempt =? maxRetries)%Z then throw error
                    else (sleep setTimeout delay ;;
                          retry_loop setTimeout operation maxRetries delay
                                     fuel (attempt + 1)%Z))
             else ret None) w);
    (destruct (Z.leb_spec attempt maxRetries); [|lia]).
  - unfold attempt_run in Hok. simpl in Hok.
    run_step. now rewrite Hok.
  - pose proof (Hfail 0%nat (Nat.lt_0_succ _)) as H0.
    unfold attempt_run in H0. simpl in H0.
    rewrite attempt_run_shift in Hok.
    run_step. destruct (operation w) as [[a1|e1] w1] eqn:Hop; [discriminate|].
    destruct (Z.eqb_spec attempt maxRetries); [lia|].
    simpl in Hok.
    apply IH; [lia | lia | | exact Hok].
    intros j Hj. assert (Hs : (S j < S k)%nat) by lia.
    apply Hfail in Hs. rewrite attempt_run_shift, Hop in Hs. exact Hs.
Qed.

End RetryFacts.

(** ** Counting invocations and delays *)

Section Counting.

Context {W E : Type}.
Variable setTimeout : Z -> W -> W.

Lemma counted_world_before {A} (operation : M W E A) delay k w c d :
  world_before (counting_timeout setTimeout) (counted operation) delay k
               (Probe w c d)
  = Probe (world_before setTimeout operation delay k w) (k + c) (k + d).
Proof.
  induction k as [|k IH]; [reflexivity|].
  simpl. rewrite IH. unfold counted, counting_timeout. simpl.
  now destruct (operation (world_before setTimeout operation delay k w)).
Qed.

Lemma counted_attempt_run {A} (operation : M W E A) delay k w c d :
  attempt_run (counting_timeout setTimeout) (counted operation) delay k
              (Probe w c d)
  = (fst (attempt_run setTimeout operation delay k w),
     Probe (snd (attempt_run setTimeout operation delay k w))
           (S (k + c)) (k + d)).
Proof.
  unfold attempt_run. rewrite counted_world_before.
  unfold counted. simpl.
  now destruct (operation (world_before setTimeout operation delay k w)).
Qed.

(** C1.  If the operation fails on each of the [n] attempts that
    [retryOperation] makes with [maxRetries = n] (n = 3 is the default),
    then the operation is invoked exactly [n] times, [n - 1] delays are
    awaited, and the call throws the very value thrown by attempt number
    [n], in the world that attempt left. *)
Theorem retry_exhausted_throws_last_failure {A} (operation : M W E A)
        (delay : Z) (n : nat) (w : W) :
  (1 <= n)%nat ->
  (forall k, (k < n)%nat ->
     is_thrown (fst (attempt_run setTimeout operation delay k w)) = true) ->
  exists e w',
    attempt_run setTimeout operation delay (n - 1) w = (Thrown e, w')
    /\ retryOperation (counting_timeout setTimeout) (counted operation)
                      (Z.of_nat n) delay (Probe w 0 0)
       = (Thrown e, Probe w' n (n - 1)).
Proof.
  intros Hn Hfail. destruct n as [|n]; [lia|].
  replace (S n - 1)%nat with n by lia.
  destruct (retry_loop_all_fail (counting_timeout setTimeout)
              (counted operation) (Z.of_nat (S n)) delay n 1%Z (Probe w 0 0))
    as (e & p & Hlast & Hloop).
  - lia.
  - intros k Hk. rewrite counted_attempt_run. simpl. apply Hfail. lia.
  - rewrite counted_attempt_run in Hlast.
    destruct (attempt_run setTimeout operation delay n w) as [r w'] eqn:Hrun.
    simpl in Hlast. injection Hlast as Hr Hp. subst r p.
    exists e, w'. split; [reflexivity|].
    unfold retryOperation. rewrite Nat2Z.id, Hloop.
    now rewrite !Nat.add_0_r.
Qed.

(** C2.  If the attempts before number [k+1] fail and attempt [k+1]
    returns [a], with [k+1 <= maxRetries], then [retryOperation] returns [a]
    after exactly [k+1] invocations and [k] delays, in the world the
    successful attempt left: nothing runs after the success.  With [k = 2]
    and [maxRetries = 3] this is "fails twice, then succeeds". *)
Theorem retry_returns_first_success {A} (operation : M W E A)
        (delay maxRetries : Z) (k : nat) (w : W) (a : A) (w' : W) :
  (Z.of_nat k < maxRetries)%Z ->
  (forall j, (j < k)%nat ->
     is_thrown (fst (attempt_run setTimeout operation delay j w)) = true) ->
  attempt_run setTimeout operation delay k w = (Returned a, w') ->
  retryOperation (counting_timeout setTimeout) (counted operation)
                 maxRetries delay (Probe w 0 0)
  = (Returned (Some a), Probe w' (S k) k).
Proof.
  intros Hk Hfail Hok. unfold retryOperation.
  rewrite (retry_loop_first_success (counting_timeout setTimeout)
             (counted operation) maxRetries delay k (Z.to_nat maxRetries)
             1%Z (Probe w 0 0) a (Probe w' (S k) k)); [reflexivity|lia|lia| |].
  - intros j Hj. rewrite counted_attempt_run. simpl. now apply Hfail.
  - rewrite counted_attempt_run, Hok. simpl. now rewrite !Nat.add_0_r.
Qed.

(** C10.  With [maxRetries] below 1 the loop body never runs:
    [retryOperation] returns [undefined] without invoking the operation or
    waiting, whatever the operation is. *)
Theorem retry_without_attempts_returns_undefined {A} (operation : M W E A)
        (delay maxRetries : Z) (p : probe W) :
  (maxRetries < 1)%Z ->
  retryOperation (counting_timeout setTimeout) (counted operation)
                 maxRetries delay p
  = (Returned None, p).
Proof.
  intros Hlt. unfold retryOperation. now apply retry_loop_fuel.
Qed.

End Counting.

Lemma retry_exhausted_throws_last_failure_witness :
  exists e w',
    attempt_run no_wait (flaky 5) 1000 (3 - 1) 0%nat = (Thrown e, w')
    /\ retryOperation (counting_timeout no_wait) (counted (flaky 5))
                      (Z.of_nat 3) 1000 (Probe 0%nat 0 0)
       = (Thrown e, Probe w' 3 (3 - 1)).
Proof.
  apply (retry_exhausted_throws_last_failure no_wait (flaky 5) 1000 3 0%nat).
  - lia.
  - intros [|[|[|k]]] Hk; try reflexivity. lia.
Defined.

Lemma retry_returns_first_success_witness :
  retryOperation (counting_timeout no_wait) (counted (flaky 2)) 3 1000
                 (Probe 0%nat 0 0)
  = (Returned (Some 3%nat), Probe 3%nat 3 2).
Proof.
  apply (retry_returns_first_success no_wait (flaky 2) 1000 3 2 0%nat 3%nat
                                     3%nat).
  - lia.
  - intros [|[|j]] Hj; try reflexivity. lia.
  - reflexivity.
Defined.

Lemma retry_without_attempts_returns_undefined_witness :
  retryOperation (counting_timeout no_wait) (counted (flaky 0)) 0 1000
                 (Probe 0%nat 0 0)
  = (Returned None, Probe 0%nat 0 0).
Proof.
  apply (retry_without_attempts_returns_undefined no_wait (flaky 0) 1000 0).
  lia.
Defined.

(** ** The tabular encoding *)

Section Encoding.

Import Json2csv.

Lemma occurrences_app c a b :
  occurrences c (a ++ b) = (occurrences c a + occurrences c b)%nat.
Proof.
  induction a as [|x a IH]; [reflexivity|].
  simpl. rewrite IH. lia.
Qed.

Lemma occurrences_escape s :
  occurrences newline (escape s) = occurrences newline s.
Proof.
  induction s as [|c s IH]; [reflexivity|].
  simpl. destruct (Ascii.eqb_spec c dquote) as [->|Hc]; simpl; now rewrite IH.
Qed.

Lemma occurrences_quoted s :
  occurrences newline (quoted s) = occurrences newline s.
Proof.
  unfold quoted. simpl. rewrite occurrences_app. simpl. lia.
Qed.

Lemma occurrences_digits d :
  occurrences newline (NilEmpty.string_of_uint d) = 0%nat.
Proof. induction d; simpl; auto. Qed.

Lemma occurrences_decimal z : occurrences newline (decimal z) = 0%nat.
Proof.
  unfold decimal, NilZero.string_of_int, NilZero.string_of_uint.
  destruct (Z.to_int z) as [d|d]; destruct d; simpl;
    try reflexivity; apply occurrences_digits.
Qed.

Lemma occurrences_join l :
  Forall (fun x => occurrences newline x = 0%nat) l ->
  occurrences newline (join "," l) = 0%nat.
Proof.
  induction 1 as [|x l Hx Hl IH]; [reflexivity|].
  destruct l as [|y l]; [exact Hx|].
  change (join "," (x :: y :: l)) with (x ++ "," ++ join "," (y :: l)).
  rewrite !occurrences_app, Hx, IH. reflexivity.
Qed.

Lemma occurrences_unlines l :
  Forall (fun x => occurrences newline x = 0%nat) l ->
  occurrences newline (unlines l) = List.length l.
Proof.
  induction 1 as [|x l Hx Hl IH]; [reflexivity|].
  simpl. rewrite occurrences_app, Hx. simpl. now rewrite IH.
Qed.

Lemma single_line_cell f d :
  single_line d = true -> occurrences newline (cell (get f d)) = 0%nat.
Proof.
  induction d as [|[k v] d IH]; [reflexivity|].
  simpl. intros H. apply andb_prop in H as [Hkv Hd].
  apply andb_prop in Hkv as [_ Hv].
  destruct (String.eqb k f); [|now apply IH].
  destruct v as [n|s|[|]|]; simpl in *; try reflexivity.
  - apply occurrences_decimal.
  - rewrite occurrences_app. simpl. rewrite occurrences_escape.
    apply Nat.eqb_eq in Hv. lia.
Qed.

Lemma single_line_row fields d :
  single_line d = true -> occurrences newline (row fields d) = 0%nat.
Proof.
  intros H. apply occurrences_join. unfold cells.
  apply Forall_map, Forall_forall. intros f _. now apply single_line_cell.
Qed.

Lemma single_line_header d :
  single_line d = true ->
  occurrences newline (header (Object_keys d)) = 0%nat.
Proof.
  intros H. apply occurrences_join. unfold Object_keys.
  rewrite map_map. apply Forall_map, Forall_forall. intros [k v] Hin.
  unfold single_line in H. rewrite forallb_forall in H.
  apply H in Hin. apply andb_prop in Hin as [Hk _]. apply Nat.eqb_eq in Hk.
  cbv beta. rewrite occurrences_quoted, occurrences_escape. exact Hk.
Qed.

Lemma get_restrict fields f d :
  In f fields -> get f (restrict fields d) = get f d.
Proof.
  intros Hin. induction d as [|[k v] d IH]; [reflexivity|].
  simpl. destruct (existsb (String.eqb k) fields) eqn:Hk; simpl.
  - now rewrite IH.
  - destruct (String.eqb_spec k f) as [->|Hne]; [|exact IH].
    assert (existsb (String.eqb f) fields = true) as Hex.
    { apply existsb_exists. exists f. split; [exact Hin|apply String.eqb_refl]. }
    congruence.
Qed.

Lemma row_restrict fields d : row fields (restrict fields d) = row fields d.
Proof.
  unfold row, cells. f_equal. apply map_ext_in. intros f Hin.
  now rewrite get_restrict.
Qed.

(** C4.  On a batch of [N >= 1] records [generateCSV] returns the header
    line followed by one row per record, [N + 1] lines in all, each ended
    by a line feed; when no key and no text value holds a line feed, the
    payload holds exactly [N + 1] line feeds.  On the batch
    [[{a:1,b:2},{a:3,b:4}]] the payload is the quoted header [a,b] and the
    rows [1,2] and [3,4], each followed by a line feed. *)
Theorem generateCSV_line_count (first : document) (others : list document) :
  exists ls,
    generateCSV (first :: others) = Returned (unlines ls)
    /\ ls = header (Object_keys first)
            :: map (row (Object_keys first)) (first :: others)
    /\ List.length ls = S (List.length (first :: others))
    /\ (forallb single_line (first :: others) = true ->
        occurrences newline (unlines ls)
        = S (List.length (first :: others)))
    /\ generateCSV example_batch = Returned example_payload.
Proof.
  eexists. split; [reflexivity|]. split; [reflexivity|].
  split; [simpl; now rewrite length_map|].
  split; [|reflexivity].
  intros Hall. rewrite occurrences_unlines.
  - simpl. now rewrite length_map.
  - pose proof Hall as Hall'. simpl in Hall'.
    apply andb_prop in Hall' as [Hfirst _].
    constructor; [now apply single_line_header|].
    apply Forall_map, Forall_forall. intros d Hd.
    apply single_line_row. rewrite forallb_forall in Hall. now apply Hall.
Qed.

(** C5.  The columns of the payload are the keys of the first record, in
    that record's order: the header row lists them and every row has one
    field per column.  A column that a record lacks gives the empty field
    at that column's position in the record's row, and the payload does not
    depend on the properties of later records whose key is not a column. *)
Theorem generateCSV_columns_of_first_record (first : document)
        (others : list document) :
  exists csv,
    generateCSV (first :: others) = Returned csv
    /\ csv = unlines (header (Object_keys first)
                      :: map (fun d => join "," (cells (Object_keys first) d))
                             (first :: others))
    /\ (forall d, In d others ->
          List.length (cells (Object_keys first) d)
          = List.length (Object_keys first))
    /\ (forall d j f, In d others ->
          nth_error (Object_keys first) j = Some f ->
          get f d = None ->
          nth_error (cells (Object_keys first) d) j = Some EmptyString)
    /\ generateCSV (first :: map (restrict (Object_keys first)) others)
       = Returned csv.
Proof.
  eexists. split; [reflexivity|]. split; [reflexivity|].
  split; [|split].
  - intros d _. unfold cells. apply length_map.
  - intros d j f _ Hj Hget. unfold cells.
    rewrite nth_error_map, Hj. simpl. now rewrite Hget.
  - unfold generateCSV, parse, lines. simpl. rewrite map_map.
    do 6 f_equal. apply map_ext. intros d. apply row_restrict.
Qed.

End Encoding.

Lemma generateCSV_line_count_witness :
  exists ls,
    generateCSV example_batch = Returned (Json2csv.unlines ls)
    /\ occurrences newline (Json2csv.unlines ls) = 3%nat.
Proof.
  destruct (generateCSV_line_count ragged_first
              [[("a", VNumber 3); ("b", VNumber 4)]])
    as (ls & Hcsv & _ & _ & Hcount & _).
  exists ls. split; [exact Hcsv|]. apply Hcount. reflexivity.
Defined.

Lemma generateCSV_columns_of_first_record_witness :
  nth_error (Json2csv.cells (Object_keys ragged_first) ragged_second) 1
  = Some EmptyString.
Proof.
  destruct (generateCSV_columns_of_first_record ragged_first [ragged_second])
    as (csv & _ & _ & _ & Hmissing & _).
  apply (Hmissing ragged_second 1%nat "b").
  - simpl. auto.
  - reflexivity.
  - reflexivity.
Defined.

(** ** The exported function *)

(** Symbolic execution of a run held in a hypothesis [H : r = code]:
    [reduce_in] runs the code as far as the next answer of a collaborator,
    [ask_in] splits on that answer. *)
Ltac reduce_in H :=
  cbv beta iota zeta delta
    [try_block catch_block finally_block fetchDataFromMongoDB
     uploadToBlob connectToMongoDB generateCSV retryOperation retry_loop
     call construct record context_log context_log_error assign_client
     setTimeout sleep bind try_catch try_finally ret throw effect
     outside trace client succeeded is_thrown returned_value option_map negb
     List.length Nat.eqb app fst snd
     Z.to_nat Pos.to_nat Pos.iter_op Nat.add Z.leb Z.eqb Z.compare
     Pos.compare Pos.compare_cont Z.add Pos.add Pos.succ Pos.eqb] in H.

Ltac ask_in H :=
  match type of H with
  | context [mongo_connect ?l ?a ?b ?c ?s] =>
      destruct (mongo_connect l a b c s) as [[?|?] ?]
  | context [find_toArray ?l ?c ?a ?b ?s] =>
      destruct (find_toArray l c a b s) as [[[|? ?]|?] ?]
  | context [fromConnectionString ?l ?a] =>
      destruct (fromConnectionString l a) as [?|?]
  | context [container_exists ?l ?a ?b ?s] =>
      destruct (container_exists l a b s) as [[[|]|?] ?]
  | context [uploadStream ?l ?a ?b ?c ?d ?n ?s] =>
      destruct (uploadStream l a b c d n s) as [[?|?] ?]
  | context [client_close ?l ?c ?s] =>
      destruct (client_close l c s) as [[?|?] ?]
  end; reduce_in H.

(** Membership in a trace whose events are known. *)
Ltac logged := simpl; repeat (first [left; reflexivity | right]).

Section PipelineFacts.

Context {S Client : Type}.
Variable lib : collaborators S Client.

Lemma falsy_absent_or_empty x : absent_or_empty x -> falsy x = true.
Proof. now intros [->| ->]. Qed.

(** The [catch] block logs three lines and completes normally. *)
Lemma catch_block_returns error (w : state S Client) :
  catch_block error w
  = (Returned tt,
     State (outside w)
           (trace w
            ++ [LogError ("Error occurred: " ++ message (error_of error));
                LogError ("Error stack: " ++ stack (error_of error));
                LogError (classification error)])
           (client w)).
Proof.
  unfold catch_block, context_log_error, record, bind, effect. simpl.
  now rewrite <- !app_assoc.
Qed.

(** The [finally] block completes normally whatever [client.close] does,
    and adds to the trace at most the call and one log line. *)
Lemma finally_block_returns (w : state S Client) :
  exists s' closing,
    finally_block lib w
    = (Returned tt, State s' (trace w ++ closing) (client w))
    /\ forallb (fun ev => negb (is_io ev) || is_close ev) closing = true
    /\ count is_close closing
       = match client w with Some _ => 1%nat | None => 0%nat end.
Proof.
  unfold finally_block. destruct (client w) as [c|] eqn:Hc.
  - unfold try_catch, bind, call, context_log, context_log_error, record,
      effect. simpl.
    destruct (client_close lib c (outside w)) as [[u|e] s'];
      eexists s', _; simpl; rewrite <- app_assoc, Hc; simpl;
      (split; [reflexivity|split; reflexivity]).
  - exists (outside w), []. unfold ret. rewrite app_nil_r, <- Hc.
    destruct w; simpl. repeat split.
Qed.

(** The two ways through the input validation. *)
Lemma invoke_missing env timeStamp (s : S) :
  missing env = true ->
  invoke lib env timeStamp s
  = (Returned tt,
     State s
           [Log ("JavaScript timer trigger function started: " ++ timeStamp);
            LogError "Missing required environment variables"]
           None).
Proof.
  intros H.
  unfold invoke, main, bind, context_log, context_log_error, record, effect,
    ret.
  cbn [outside trace client app]. now rewrite H.
Qed.

Lemma invoke_validated env timeStamp (s : S) :
  missing env = false ->
  invoke lib env timeStamp s
  = try_finally (try_catch (try_block lib env timeStamp) catch_block)
                (finally_block lib)
                (State s
                   [Log ("JavaScript timer trigger function started: "
                         ++ timeStamp)]
                   None).
Proof.
  intros H.
  unfold invoke, main, bind, context_log, record, assign_client, effect.
  cbn [outside trace client app]. now rewrite H.
Qed.

(** C6.  When one of the five configuration values is absent or empty, the
    invocation logs the start line and the error line, returns normally,
    and does nothing else: no collaborator is called (so no connection is
    attempted) and the outside world is left as it was. *)
Theorem missing_configuration_stops_before_io (env : process_env)
        (timeStamp : string) (s : S) :
  absent_or_empty (MongoDBAtlasConnectionString env)
  \/ absent_or_empty (DatabaseName env)
  \/ absent_or_empty (CollectionName env)
  \/ absent_or_empty (AzureBlobStorageConnectionString env)
  \/ absent_or_empty (BlobContainerName env) ->
  invoke lib env timeStamp s
  = (Returned tt,
     State s
           [Log ("JavaScript timer trigger function started: " ++ timeStamp);
            LogError "Missing required environment variables"]
           None)
  /\ count is_io (trace (snd (invoke lib env timeStamp s))) = 0%nat.
Proof.
  intros H.
  assert (Hmissing : missing env = true).
  { unfold missing.
    destruct H as [H|[H|[H|[H|H]]]]; apply falsy_absent_or_empty in H;
      rewrite H; rewrite ?orb_true_r; reflexivity. }
  pose proof (invoke_missing env timeStamp s Hmissing) as Hrun.
  split; [exact Hrun|]. now rewrite Hrun.
Qed.

(** C9.  Every invocation returns normally.  When the [try] block throws,
    the thrown value is caught: its message, its stack and its
    classification are logged, after which only the [finally] block adds to
    the trace, and nothing is thrown to the caller. *)
Theorem invocation_returns_normally (env : process_env) (timeStamp : string)
        (s : S) :
  fst (invoke lib env timeStamp s) = Returned tt
  /\ (missing env = false ->
      forall error w',
        try_block lib env timeStamp
          (State s
             [Log ("JavaScript timer trigger function started: "
                   ++ timeStamp)]
             None)
        = (Thrown error, w') ->
        exists closing,
          trace (snd (invoke lib env timeStamp s))
          = (trace w'
             ++ [LogError ("Error occurred: " ++ message (error_of error));
                 LogError ("Error stack: " ++ stack (error_of error));
                 LogError (classification error)]
             ++ closing)%list
          /\ forallb (fun ev => negb (is_io ev) || is_close ev) closing
             = true).
Proof.
  destruct (missing env) eqn:Hm.
  - rewrite invoke_missing by exact Hm. split; [reflexivity|discriminate].
  - rewrite invoke_validated by exact Hm.
    unfold try_finally, try_catch.
    destruct (try_block lib env timeStamp _) as [[u|error] w1] eqn:Htry.
    + destruct (finally_block_returns w1) as (s' & closing & -> & _).
      split; [now destruct u|]. intros _ error w' H. discriminate H.
    + rewrite catch_block_returns.
      match goal with
      | |- context [finally_block lib ?w] =>
          destruct (finally_block_returns w) as (s' & closing & -> & Hc & _)
      end.
      split; [reflexivity|].
      intros _ error' w' H. injection H as <- <-.
      exists closing. cbn [snd fst trace]. split; [|exact Hc].
      now rewrite <- app_assoc.
Qed.

End PipelineFacts.

(** ** Properties of every run, by exploring its paths *)

Section RunFacts.

Context {S Client : Type}.
Variable lib : collaborators S Client.

(** C3.  [fetchDataFromMongoDB] throws the [CustomError] labelled
    [NoDataError] when the collection holds no document, and throws a
    [CustomError] in that case only.  In a run in which the connection was
    made and the fetch found nothing, that error is logged with its label,
    the collection is read once, neither the container probe nor the upload
    is made, [client.close] is called exactly once, and the invocation
    returns normally. *)
Theorem empty_collection_is_NoDataError (env : process_env)
        (timeStamp : string) (s : S) :
  (forall c db coll w,
     (fst (find_toArray lib c db coll (outside w)) = Returned [] ->
      fst (fetchDataFromMongoDB lib c db coll w)
      = Thrown (new_CustomError "No documents found in MongoDB"
                                "NoDataError"))
     /\ (forall e type,
           fst (fetchDataFromMongoDB lib c db coll w)
           = Thrown (CustomError e type) ->
           fst (find_toArray lib c db coll (outside w)) = Returned []))
  /\ (let r := invoke lib env timeStamp s in
      let t := trace (snd r) in
      existsb connect_succeeded t = true ->
      existsb found_nothing t = true ->
      In (LogError "Error occurred: No documents found in MongoDB") t
      /\ In (LogError "Custom error type: NoDataError") t
      /\ count is_find t = 1%nat
      /\ count is_exists t = 0%nat
      /\ count is_upload t = 0%nat
      /\ count is_close t = 1%nat
      /\ fst r = Returned tt).
Proof.
  split.
  - intros c db coll w.
    unfold fetchDataFromMongoDB, bind, call, throw, ret.
    destruct (find_toArray lib c db coll (outside w)) as [[[|d ds]|e] s'];
      simpl; split; try discriminate; try reflexivity.
  - intros r t. subst t r.
    remember (invoke lib env timeStamp s) as r eqn:Hr.
    destruct (missing env) eqn:Hm.
    + rewrite invoke_missing in Hr by exact Hm. subst r. discriminate.
    + rewrite invoke_validated in Hr by exact Hm.
      reduce_in Hr. repeat ask_in Hr.
      all: subst r; cbn [fst snd trace]; intros Hconnected Hempty;
        try discriminate Hconnected; try discriminate Hempty.
      all: repeat split; try reflexivity; logged.
Qed.

(** C7.  In a run in which the container probe answered [false], the error
    whose message quotes the container name is logged with the label
    [ContainerNotFoundError], no upload is made, and after the probe the
    run only logs and closes the connection: nothing is created.  In every
    run, an upload is made only after a probe that answered [true]. *)
Theorem absent_container_is_never_written (env : process_env)
        (timeStamp : string) (s : S) :
  let r := invoke lib env timeStamp s in
  let t := trace (snd r) in
  (existsb (answered false) t = true ->
   In (LogError ("Error occurred: Container "
                 ++ quoted (text (BlobContainerName env))
                 ++ " does not exist")) t
   /\ In (LogError "Custom error type: ContainerNotFoundError") t
   /\ count is_upload t = 0%nat
   /\ forallb (fun ev => negb (is_io ev) || is_close ev) (after_probe t)
      = true
   /\ fst r = Returned tt)
  /\ (existsb is_upload t = true -> existsb (answered true) t = true).
Proof.
  intros r t. subst t r.
  remember (invoke lib env timeStamp s) as r eqn:Hr.
  destruct (missing env) eqn:Hm.
  - rewrite invoke_missing in Hr by exact Hm. subst r. split; discriminate.
  - rewrite invoke_validated in Hr by exact Hm.
    reduce_in Hr. repeat ask_in Hr.
    all: subst r; cbn [fst snd trace];
      (split; [intros Habsent; try discriminate Habsent
              |intros Hupload; try discriminate Hupload; try reflexivity]).
    all: repeat split; try reflexivity; logged.
Qed.

(** Whatever [client.close] does, the invocation returns the same outcome
    and records the same events up to the call. *)
Lemma close_does_not_mask (env : process_env) (timeStamp : string) (s : S)
      (other : Client -> S -> outcome Error unit * S) :
  fst (invoke (with_close lib other) env timeStamp s)
  = fst (invoke lib env timeStamp s)
  /\ until_close (trace (snd (invoke (with_close lib other) env timeStamp s)))
     = until_close (trace (snd (invoke lib env timeStamp s))).
Proof.
  remember (invoke lib env timeStamp s) as r eqn:Hr.
  remember (invoke (with_close lib other) env timeStamp s) as r' eqn:Hr'.
  destruct (missing env) eqn:Hm.
  - rewrite invoke_missing in Hr, Hr' by exact Hm. now subst r r'.
  - rewrite invoke_validated in Hr, Hr' by exact Hm.
    reduce_in Hr. reduce_in Hr'.
    unfold with_close in Hr'.
    cbn [mongo_connect find_toArray fromConnectionString container_exists
         uploadStream client_close elapse] in Hr'.
    repeat (ask_in Hr; reduce_in Hr').
    all: try (subst r r'; split; reflexivity).
    all: destruct (other _ _) as [[?|?] ?]; subst r r'; split; reflexivity.
Qed.

(** C8.  In every run, [client.close] is called exactly once if a
    connection attempt succeeded and is not called otherwise.  The
    invocation returns normally even when closing throws, in which case the
    failure is the last line logged; and replacing [client.close] by any
    other behaviour changes neither what the invocation returns nor
    anything recorded before the call. *)
Theorem disconnect_once_per_connection (env : process_env)
        (timeStamp : string) (s : S) :
  let r := invoke lib env timeStamp s in
  let t := trace (snd r) in
  (existsb connect_succeeded t = true -> count is_close t = 1%nat)
  /\ (existsb connect_succeeded t = false -> count is_close t = 0%nat)
  /\ fst r = Returned tt
  /\ (existsb close_failed t = true ->
      exists msg,
        last t (Log EmptyString)
        = LogError ("Error occurred while closing MongoDB connection: "
                    ++ msg))
  /\ (forall close,
        let r' := invoke (with_close lib close) env timeStamp s in
        fst r' = fst r
        /\ until_close (trace (snd r')) = until_close t).
Proof.
  intros r t. subst t r.
  pose proof (close_does_not_mask env timeStamp s) as Hmask.
  remember (invoke lib env timeStamp s) as r eqn:Hr.
  repeat (split; [|try exact Hmask]); clear Hmask.
  all: (destruct (missing env) eqn:Hm;
        [rewrite invoke_missing in Hr by exact Hm; subst r;
         try discriminate; reflexivity
        |rewrite invoke_validated in Hr by exact Hm]);
    reduce_in Hr; repeat ask_in Hr; subst r; cbn [fst snd trace];
    try reflexivity; intros H; try discriminate H; try reflexivity;
    eexists; reflexivity.
Qed.

End RunFacts.

(** *** The theorems at concrete runs *)

Lemma missing_configuration_stops_before_io_witness :
  invoke (sample_lib 0 example_batch (Returned true) (Returned tt))
         incomplete_env sample_time 0%nat
  = (Returned tt,
     State 0%nat
           [Log ("JavaScript timer trigger function started: " ++ sample_time);
            LogError "Missing required environment variables"]
           None)
  /\ count is_io
        (trace (snd (invoke (sample_lib 0 example_batch (Returned true)
                                        (Returned tt))
                            incomplete_env sample_time 0%nat)))
     = 0%nat.
Proof.
  apply (missing_configuration_stops_before_io
           (sample_lib 0 example_batch (Returned true) (Returned tt))
           incomplete_env sample_time 0%nat).
  right. right. right. right. left. reflexivity.
Defined.

Lemma empty_collection_is_NoDataError_witness :
  let r := invoke (sample_lib 2 [] (Returned true) (Returned tt))
                  sample_env sample_time 0%nat in
  let t := trace (snd r) in
  In (LogError "Error occurred: No documents found in MongoDB") t
  /\ In (LogError "Custom error type: NoDataError") t
  /\ count is_find t = 1%nat
  /\ count is_exists t = 0%nat
  /\ count is_upload t = 0%nat
  /\ count is_close t = 1%nat
  /\ fst r = Returned tt.
Proof.
  apply (proj2 (empty_collection_is_NoDataError
                  (sample_lib 2 [] (Returned true) (Returned tt))
                  sample_env sample_time 0%nat)).
  - reflexivity.
  - reflexivity.
Defined.

Lemma absent_container_is_never_written_witness :
  let r := invoke (sample_lib 0 example_batch (Returned false) (Returned tt))
                  sample_env sample_time 0%nat in
  let t := trace (snd r) in
  In (LogError ("Error occurred: Container "
                ++ quoted (text (BlobContainerName sample_env))
                ++ " does not exist")) t
  /\ In (LogError "Custom error type: ContainerNotFoundError") t
  /\ count is_upload t = 0%nat
  /\ forallb (fun ev => negb (is_io ev) || is_close ev) (after_probe t)
     = true
  /\ fst r = Returned tt.
Proof.
  apply (proj1 (absent_container_is_never_written
                  (sample_lib 0 example_batch (Returned false) (Returned tt))
                  sample_env sample_time 0%nat)).
  reflexivity.
Defined.

Lemma disconnect_once_per_connection_witness :
  count is_close
        (trace (snd (invoke (sample_lib 2 example_batch (Returned true)
                                        (Thrown close_error))
                            sample_env sample_time 0%nat)))
  = 1%nat
  /\ count is_close
        (trace (snd (invoke (sample_lib 3 example_batch (Returned true)
                                        (Thrown close_error))
                            sample_env sample_time 0%nat)))
     = 0%nat.
Proof.
  split.
  - apply (proj1 (disconnect_once_per_connection
                    (sample_lib 2 example_batch (Returned true)
                                (Thrown close_error))
                    sample_env sample_time 0%nat)).
    reflexivity.
  - apply (proj1 (proj2 (disconnect_once_per_connection
                           (sample_lib 3 example_batch (Returned true)
                                       (Thrown close_error))
                           sample_env sample_time 0%nat))).
    reflexivity.
Defined.

Lemma invocation_returns_normally_witness :
  exists closing,
    trace (snd (invoke (sample_lib 3 example_batch (Returned true)
                                   (Returned tt))
                       sample_env sample_time 0%nat))
    = (trace (snd (try_block
                     (sample_lib 3 example_batch (Returned true)
                                 (Returned tt))
                     sample_env sample_time
                     (State 0%nat
                        [Log ("JavaScript timer trigger function started: "
                              ++ sample_time)]
                        None)))
       ++ [LogError ("Error occurred: " ++ message network_error);
           LogError ("Error stack: " ++ stack network_error);
           LogError (classification (HostError network_error))]
       ++ closing)%list
    /\ forallb (fun ev => negb (is_io ev) || is_close ev) closing = true.
Proof.
  apply (proj2 (invocation_returns_normally
                  (sample_lib 3 example_batch (Returned true) (Returned tt))
                  sample_env sample_time 0%nat)
               eq_refl (HostError network_error)).
  reflexivity.
Defined.

(** * Further properties *)

(** ** More on the retry loop *)

Section RetryAccounting.

Context {W E : Type}.
Variable setTimeout : Z -> W -> W.

(** What the loop costs, from attempt number [attempt] on: it makes [k]
    invocations, at most as many as there are attempts left, and waits
    after each of them but the last; it falls out of the loop only when no
    attempt is left, and throws only after the last attempt. *)
Lemma retry_loop_accounting {A} (operation : M W E A) maxRetries delay :
  forall fuel attempt p r p',
    (maxRetries + 1 - attempt <= Z.of_nat fuel)%Z ->
    retry_loop (counting_timeout setTimeout) (counted operation) maxRetries
               delay fuel attempt p = (r, p') ->
    exists k,
      calls p' = (calls p + k)%nat
      /\ delays p' = (delays p + (k - 1))%nat
      /\ (Z.of_nat k <= Z.max 0 (maxRetries + 1 - attempt))%Z
      /\ ((attempt <= maxRetries)%Z ->
          (1 <= k)%nat
          /\ r <> Returned None
          /\ (is_thrown r = true ->
              Z.of_nat k = (maxRetries + 1 - attempt)%Z)).
Proof.
  induction fuel as [|fuel IH]; intros attempt p r p' Hfuel Hrun.
  - simpl in Hrun. injection Hrun as <- <-.
    exists 0%nat. repeat split; try lia.
  - simpl in Hrun.
    destruct (Z.leb_spec attempt maxRetries) as [Hle|Hgt].
    + cbv [bind try_catch ret throw sleep effect counted] in Hrun.
      destruct (operation (inner p)) as [[a|e] w1].
      * injection Hrun as <- <-. exists 1%nat. simpl.
        repeat split; try lia; discriminate.
      * destruct (Z.eqb_spec attempt maxRetries) as [Heq|Hne].
        -- injection Hrun as <- <-. exists 1%nat. simpl.
           repeat split; try lia; discriminate.
        -- apply IH in Hrun; [|lia].
           destruct Hrun as (k & Hc & Hd & Hk & Hmore).
           destruct Hmore as (H1 & Hnone & Hthrown); [lia|].
           simpl in Hc, Hd.
           exists (S k). repeat split; try lia; try assumption.
           intros Ht. apply Hthrown in Ht. lia.
    + injection Hrun as <- <-.
      exists 0%nat. repeat split; try lia.
Qed.

(** X1.  Whatever the operation does and whatever [maxRetries] is,
    [retryOperation] invokes the operation at most [maxRetries] times (never
    for [maxRetries] below 1) and waits exactly once between two
    consecutive invocations: never before the first, never after the
    last. *)
Theorem retry_never_exceeds_budget {A} (operation : M W E A)
        (maxRetries delay : Z) (w : W) :
  let p' := snd (retryOperation (counting_timeout setTimeout)
                                (counted operation) maxRetries delay
                                (Probe w 0 0)) in
  (Z.of_nat (calls p') <= Z.max 0 maxRetries)%Z
  /\ delays p' = (calls p' - 1)%nat.
Proof.
  intros p'. subst p'. unfold retryOperation.
  destruct (retry_loop _ _ _ _ _ _ _) as [r p'] eqn:Hrun.
  apply retry_loop_accounting in Hrun; [|lia].
  destruct Hrun as (k & Hc & Hd & Hk & _). simpl in *. lia.
Qed.


End RetryAccounting.

(** Reading a trace whose spine is known: by evaluation, once the tests
    that compare a symbolic string with itself are rewritten. *)
Ltac read_trace :=
  first
    [ reflexivity
    | apply Nat.leb_le; reflexivity
    | cbn [fst snd trace forallb connects_as_configured uploads_as_named
           andb];
      rewrite ?String.eqb_refl, ?Nat.eqb_refl;
      reflexivity ].

(** Splits on the two tests on [error.name] of the [catch] block. *)
Ltac classify_in H :=
  cbv [classification] in H;
  repeat match type of H with
         | context [String.eqb (name ?e) ?s] =>
             destruct (String.eqb (name e) s)
         end.

(** ** A census of every run of the exported function *)

Section Census.

Context {S Client : Type}.
Variable lib : collaborators S Client.

Lemma run_census (env : process_env) (timeStamp : string) (s : S) :
  let t := trace (snd (invoke lib env timeStamp s)) in
  existsb is_connect t = negb (missing env)
  /\ (count is_connect t <= 3)%nat
  /\ count is_delay t = (count is_connect t - 1)%nat
  /\ forallb waits_one_second t = true
  /\ forallb (connects_as_configured
                (text (MongoDBAtlasConnectionString env))) t = true
  /\ (count is_find t <= 1)%nat
  /\ (count is_exists t <= 1)%nat
  /\ (count is_upload t <= 1)%nat
  /\ (count is_close t <= 1)%nat
  /\ forallb (uploads_as_named (text (BlobContainerName env))
                               ("data-export-" ++ timeStamp ++ ".csv")) t
     = true
  /\ forallb (fun ev => negb (is_io ev)) (after_close t) = true
  /\ (count is_success_line t + count is_failure_line t
      + count is_rejection_line t = 1)%nat
  /\ existsb is_success_line t = existsb upload_succeeded t
  /\ existsb is_find t = existsb connect_succeeded t
  /\ (existsb found_something t = false ->
      count is_exists t = 0%nat /\ count is_upload t = 0%nat).
Proof.
  intros t. subst t.
  remember (invoke lib env timeStamp s) as r eqn:Hr.
  destruct (missing env) eqn:Hm.
  - rewrite invoke_missing in Hr by exact Hm. subst r.
    repeat split; read_trace.
  - rewrite invoke_validated in Hr by exact Hm.
    reduce_in Hr. repeat ask_in Hr.
    all: classify_in Hr; subst r; repeat split;
      first [ read_trace
            | match goal with H : _ = false |- _ => discriminate H end ].
Qed.

End Census.

(** ** What every run does *)

Section RunShape.

Context {S Client : Type}.
Variable lib : collaborators S Client.

Lemma falsy_present x : falsy x = false <-> present x.
Proof.
  split.
  - destruct x as [[|c rest]|]; try discriminate. intros _. now exists c, rest.
  - now intros (c & rest & ->).
Qed.

Lemma missing_present env :
  missing env = false
  <-> present (MongoDBAtlasConnectionString env)
      /\ present (DatabaseName env)
      /\ present (CollectionName env)
      /\ present (AzureBlobStorageConnectionString env)
      /\ present (BlobContainerName env).
Proof.
  unfold missing. rewrite !orb_false_iff, !falsy_present. tauto.
Qed.

(** X3.  A connection is attempted exactly when the five configuration
    values are all non-empty strings. *)
Theorem connection_attempted_iff_configured (env : process_env)
        (timeStamp : string) (s : S) :
  existsb is_connect (trace (snd (invoke lib env timeStamp s))) = true
  <-> present (MongoDBAtlasConnectionString env)
      /\ present (DatabaseName env)
      /\ present (CollectionName env)
      /\ present (AzureBlobStorageConnectionString env)
      /\ present (BlobContainerName env).
Proof.
  rewrite <- missing_present.
  destruct (run_census lib env timeStamp s) as (-> & _).
  now destruct (missing env).
Qed.

(** X4.  In every run at most three connection attempts are made, all to
    the configured connection string with the timeouts 5000 and 10000; one
    second is waited between two consecutive attempts and at no other
    moment; and the fetch, the container probe, the upload and the
    disconnection are each made at most once: only connecting is retried. *)
Theorem only_connecting_is_retried (env : process_env) (timeStamp : string)
        (s : S) :
  let t := trace (snd (invoke lib env timeStamp s)) in
  (count is_connect t <= 3)%nat
  /\ forallb (connects_as_configured
                (text (MongoDBAtlasConnectionString env))) t = true
  /\ count is_delay t = (count is_connect t - 1)%nat
  /\ forallb waits_one_second t = true
  /\ (count is_find t <= 1)%nat
  /\ (count is_exists t <= 1)%nat
  /\ (count is_upload t <= 1)%nat
  /\ (count is_close t <= 1)%nat.
Proof.
  intros t. subst t.
  destruct (run_census lib env timeStamp s)
    as (_ & H1 & H2 & H3 & H4 & H5 & H6 & H7 & H8 & _).
  repeat split; assumption.
Qed.

(** X5.  Every upload a run makes goes into the configured container, under
    the name [data-export-<timeStamp>.csv] built from the time stamp taken
    when the run started, and declares as its size the length of the
    payload it sends. *)
Theorem upload_is_named_after_the_run (env : process_env)
        (timeStamp : string) (s : S) container blobName payload size ok :
  In (UploadStream container blobName payload size ok)
     (trace (snd (invoke lib env timeStamp s))) ->
  container = text (BlobContainerName env)
  /\ blobName = "data-export-" ++ timeStamp ++ ".csv"
  /\ size = String.length payload.
Proof.
  intros Hin.
  destruct (run_census lib env timeStamp s)
    as (_ & _ & _ & _ & _ & _ & _ & _ & _ & Hup & _).
  rewrite forallb_forall in Hup. apply Hup in Hin. simpl in Hin.
  apply andb_prop in Hin as [Hin Hsize].
  apply andb_prop in Hin as [Hc Hb].
  apply String.eqb_eq in Hc, Hb. apply Nat.eqb_eq in Hsize.
  now repeat split.
Qed.

(** X6.  In every run the disconnection is the last thing done: after
    [client.close] has been called, the run only writes log lines. *)
Theorem disconnection_comes_last (env : process_env) (timeStamp : string)
        (s : S) :
  forallb (fun ev => negb (is_io ev))
          (after_close (trace (snd (invoke lib env timeStamp s))))
  = true.
Proof.
  destruct (run_census lib env timeStamp s)
    as (_ & _ & _ & _ & _ & _ & _ & _ & _ & _ & H & _).
  exact H.
Qed.

(** X7.  Every run reports how it ended exactly once: it logs either the
    success line, or one [Error occurred: ...] line, or the line about the
    missing environment variables, and never two of them.  The success line
    is logged exactly when an upload succeeded. *)
Theorem outcome_is_reported_once (env : process_env) (timeStamp : string)
        (s : S) :
  let t := trace (snd (invoke lib env timeStamp s)) in
  (count is_success_line t + count is_failure_line t
   + count is_rejection_line t = 1)%nat
  /\ existsb is_success_line t = existsb upload_succeeded t.
Proof.
  intros t. subst t.
  destruct (run_census lib env timeStamp s)
    as (_ & _ & _ & _ & _ & _ & _ & _ & _ & _ & _ & H1 & H2 & _).
  now split.
Qed.

(** X12.  The stages run in order and each needs the one before: the
    collection is read exactly when a connection attempt succeeded, and the
    container is probed only after the fetch returned at least one
    document, so a failed or empty fetch leaves the blob store untouched. *)
Theorem stages_need_their_predecessor (env : process_env)
        (timeStamp : string) (s : S) :
  let t := trace (snd (invoke lib env timeStamp s)) in
  existsb is_find t = existsb connect_succeeded t
  /\ (existsb found_something t = false ->
      count is_exists t = 0%nat /\ count is_upload t = 0%nat).
Proof.
  intros t. subst t.
  destruct (run_census lib env timeStamp s)
    as (_ & _ & _ & _ & _ & _ & _ & _ & _ & _ & _ & _ & _ & Hfind & Hsink).
  now split.
Qed.

(** X8.  When the three connection attempts all fail, the run is exactly:
    the three attempts with two waits of one second between them, then the
    message, the stack and the classification of the error of the third
    attempt; nothing is fetched, [client.close] is not called, and the
    invocation returns normally. *)
Theorem connection_failure_ends_the_run (env : process_env)
        (timeStamp : string) (s s1 s2 s3 : S) (e1 e2 e3 : Error) :
  let cs := text (MongoDBAtlasConnectionString env) in
  missing env = false ->
  mongo_connect lib cs 5000 10000 s = (Thrown e1, s1) ->
  mongo_connect lib cs 5000 10000 (elapse lib 1000 s1) = (Thrown e2, s2) ->
  mongo_connect lib cs 5000 10000 (elapse lib 1000 s2) = (Thrown e3, s3) ->
  invoke lib env timeStamp s
  = (Returned tt,
     State s3
       [Log ("JavaScript timer trigger function started: " ++ timeStamp);
        Connect cs 5000 10000 false; Delay 1000;
        Connect cs 5000 10000 false; Delay 1000;
        Connect cs 5000 10000 false;
        LogError ("Error occurred: " ++ message e3);
        LogError ("Error stack: " ++ stack e3);
        LogError (classification (HostError e3))]
       None).
Proof.
  intros cs Hm H1 H2 H3. subst cs.
  rewrite invoke_validated by exact Hm.
  remember (try_finally _ _ _) as r eqn:Hr.
  reduce_in Hr. rewrite H1 in Hr. reduce_in Hr.
  rewrite H2 in Hr. reduce_in Hr. rewrite H3 in Hr. reduce_in Hr.
  exact Hr.
Qed.


(** X10.  What [fetchDataFromMongoDB] returns is never empty and is exactly
    what the driver gave, so [generateCSV], which throws a [TypeError] on an
    empty array, never throws on a fetched batch. *)
Theorem fetched_batch_is_encodable (c : Client) (db coll : string)
        (w w' : state S Client) (docs : list document) :
  fetchDataFromMongoDB lib c db coll w = (Returned docs, w') ->
  docs <> []
  /\ fst (find_toArray lib c db coll (outside w)) = Returned docs
  /\ is_thrown (generateCSV docs) = false
  /\ is_thrown (generateCSV []) = true.
Proof.
  unfold fetchDataFromMongoDB, bind, call, throw, ret.
  destruct (find_toArray lib c db coll (outside w)) as [[[|d ds]|e] s'];
    simpl; intros H; try discriminate H.
  injection H as <- <-. repeat split. discriminate.
Qed.

End RunShape.

(** ** The two copies of the module *)

(** Symbolic execution of the second copy, as [reduce_in] for the first. *)
Ltac reduce_second_in H :=
  cbv beta iota zeta delta
    [SecondCopy.try_block SecondCopy.catch_block SecondCopy.finally_block
     fetchDataFromMongoDB
     uploadToBlob connectToMongoDB generateCSV retryOperation retry_loop
     call construct record context_log context_log_error assign_client
     setTimeout sleep bind try_catch try_finally ret throw effect
     outside trace client succeeded is_thrown returned_value option_map negb
     List.length Nat.eqb app fst snd
     Z.to_nat Pos.to_nat Pos.iter_op Nat.add Z.leb Z.eqb Z.compare
     Pos.compare Pos.compare_cont Z.add Pos.add Pos.succ Pos.eqb] in H.

Section Copies.

Context {S Client : Type}.
Variable lib : collaborators S Client.

Lemma second_invoke_missing env timeStamp (s : S) :
  missing env = true ->
  SecondCopy.invoke lib env timeStamp s
  = (Returned tt,
     State s
           [Log ("JavaScript timer trigger function started: " ++ timeStamp);
            Log "Fetching ENV variables";
            Log "Missing required environment variables"]
           None).
Proof.
  intros H.
  unfold SecondCopy.invoke, SecondCopy.main, bind, context_log, record,
    effect, ret.
  cbn [outside trace client app]. now rewrite H.
Qed.

Lemma second_invoke_validated env timeStamp (s : S) :
  missing env = false ->
  SecondCopy.invoke lib env timeStamp s
  = try_finally (try_catch (SecondCopy.try_block lib env timeStamp)
                           SecondCopy.catch_block)
                (SecondCopy.finally_block lib)
                (State s
                   [Log ("JavaScript timer trigger function started: "
                         ++ timeStamp);
                    Log "Fetching ENV variables"]
                   None).
Proof.
  intros H.
  unfold SecondCopy.invoke, SecondCopy.main, bind, context_log, record,
    assign_client, effect.
  cbn [outside trace client app]. now rewrite H.
Qed.

(** X11.  On every configuration and every behaviour of the client
    libraries, the second copy of the exported function returns what the
    first returns, makes the same calls with the same results in the same
    order, and leaves the outside world and the [client] variable in the
    same state; it writes more log lines, and none of them at error
    level. *)
Theorem copies_differ_in_logging_only (env : process_env)
        (timeStamp : string) (s : S) :
  let first := invoke lib env timeStamp s in
  let second := SecondCopy.invoke lib env timeStamp s in
  fst second = fst first
  /\ outside (snd second) = outside (snd first)
  /\ client (snd second) = client (snd first)
  /\ filter is_io (trace (snd second)) = filter is_io (trace (snd first))
  /\ count is_log_error (trace (snd second)) = 0%nat
  /\ (List.length (trace (snd first)) < List.length (trace (snd second)))%nat.
Proof.
  intros first second. subst first second.
  remember (invoke lib env timeStamp s) as r1 eqn:H1.
  remember (SecondCopy.invoke lib env timeStamp s) as r2 eqn:H2.
  destruct (missing env) eqn:Hm.
  - rewrite invoke_missing in H1 by exact Hm.
    rewrite second_invoke_missing in H2 by exact Hm.
    subst r1 r2. repeat split. apply Nat.ltb_lt. reflexivity.
  - rewrite invoke_validated in H1 by exact Hm.
    rewrite second_invoke_validated in H2 by exact Hm.
    reduce_in H1. reduce_second_in H2.
    repeat (ask_in H1; reduce_second_in H2).
    all: subst r1 r2.
    all: (split; [reflexivity|]).
    all: (split; [reflexivity|]).
    all: (split; [reflexivity|]).
    all: (split; [cbv [filter is_io fst snd trace]; reflexivity|]).
    all: (split; [reflexivity|]).
    all: apply Nat.ltb_lt; reflexivity.
Qed.

End Copies.

(** *** The further theorems at concrete runs *)


Lemma connection_attempted_iff_configured_witness :
  existsb is_connect
          (trace (snd (invoke (steady_lib 0 example_batch) sample_env
                              sample_time 0%nat)))
  = true.
Proof.
  apply (proj2 (connection_attempted_iff_configured
                  (steady_lib 0 example_batch) sample_env sample_time
                  0%nat)).
  repeat split; eexists; eexists; reflexivity.
Defined.

Lemma upload_is_named_after_the_run_witness :
  "exports" = text (BlobContainerName sample_env)
  /\ "data-export-2024-01-01T00:00:00.000Z.csv"
     = "data-export-" ++ sample_time ++ ".csv"
  /\ 16%nat = String.length example_payload.
Proof.
  apply (upload_is_named_after_the_run
           (steady_lib 0 example_batch) sample_env sample_time 0%nat
           "exports" "data-export-2024-01-01T00:00:00.000Z.csv"
           example_payload 16 true).
  logged.
Defined.

Lemma connection_failure_ends_the_run_witness :
  invoke (steady_lib 3 example_batch) sample_env sample_time 0%nat
  = (Returned tt,
     State 3%nat
       [Log ("JavaScript timer trigger function started: " ++ sample_time);
        Connect "mongodb+srv://cluster" 5000 10000 false; Delay 1000;
        Connect "mongodb+srv://cluster" 5000 10000 false; Delay 1000;
        Connect "mongodb+srv://cluster" 5000 10000 false;
        LogError ("Error occurred: " ++ message network_error);
        LogError ("Error stack: " ++ stack network_error);
        LogError (classification (HostError network_error))]
       None).
Proof.
  apply (connection_failure_ends_the_run
           (steady_lib 3 example_batch) sample_env sample_time
           0%nat 1%nat 2%nat 3%nat network_error network_error
           network_error); reflexivity.
Defined.


Lemma fetched_batch_is_encodable_witness :
  example_batch <> []
  /\ fst (find_toArray (steady_lib 0 example_batch) tt "shop" "orders"
                       (outside (State 1%nat [] (Some tt))))
     = Returned example_batch
  /\ is_thrown (generateCSV example_batch) = false
  /\ is_thrown (generateCSV []) = true.
Proof.
  apply (fetched_batch_is_encodable
           (steady_lib 0 example_batch) tt "shop" "orders"
           (State 1%nat [] (Some tt))
           (State 2%nat [Find "shop" "orders" (Some 2%nat)] (Some tt))
           example_batch).
  reflexivity.
Defined.

Lemma stages_need_their_predecessor_witness :
  let t := trace (snd (invoke (sample_lib 0 [] (Returned true) (Returned tt))
                              sample_env sample_time 0%nat)) in
  count is_exists t = 0%nat /\ count is_upload t = 0%nat.
Proof.
  apply (proj2 (stages_need_their_predecessor
                  (sample_lib 0 [] (Returned true) (Returned tt))
                  sample_env sample_time 0%nat)).
  reflexivity.
Defined.
